(** * The Amundsen source connection handler

    A shallow embedding of
    [ingestion/src/metadata/ingestion/source/metadata/amundsen/connection.py]
    ([get_connection] and [test_connection]) together with the collaborators
    it calls.  Python calls that may raise and that act on the outside world
    (the Neo4j server, the workflow store) are computations of a state and
    exception monad over an explicit [World]. *)

From Stdlib Require Import String ZArith.
From stdpp Require Import base option list strings gmap pretty.

Set Default Proof Using "Type".
Local Open Scope Z_scope.

(** ** Python exceptions *)

(** The class of a raised object.  [except Exception] (line 49 of the source)
    matches every class deriving from [Exception]; the three exit signals
    derive from [BaseException] only. *)
Inductive ExcClass :=
| SourceConnectionException
| ExceptionSubclass (qualname : string)
| KeyboardInterrupt
| SystemExit
| GeneratorExit.

(** A raised object: its class and what [str()] (the [{exc}] of an f-string)
    gives for it. *)
Record BaseException := mkExc { exc_class : ExcClass; exc_str : string }.

Definition isinstance_Exception (e : BaseException) : bool :=
  match exc_class e with
  | SourceConnectionException | ExceptionSubclass _ => true
  | KeyboardInterrupt | SystemExit | GeneratorExit => false
  end.

Inductive Outcome (A : Type) :=
| Return (a : A)
| Raise (e : BaseException).
Arguments Return {A} a.
Arguments Raise {A} e.

(** ** Step results and reports (spec section 3) *)

Inductive Status := Succeeded | Failed | Skipped.

Definition Status_eqb (a b : Status) : bool :=
  match a, b with
  | Succeeded, Succeeded | Failed, Failed | Skipped, Skipped => true
  | _, _ => false
  end.

Record StepResult := mkStepResult {
  stepName : string;
  status : Status;
  message : option string;
  errorKind : option ExcClass
}.

Record Report := mkReport {
  serviceIdentifier : string;
  orderedResults : list StepResult;
  overallStatus : Status
}.

(** ** The outside world *)

(** What the code can observe and change outside its own variables: the
    sessions (drivers, sockets) that are open, the network traffic sent so
    far, and the reports the workflow-persistence collaborator holds, keyed
    by workflow reference. *)
Record World := mkWorld {
  open_sessions : gset nat;
  io_log : list string;
  workflow_store : gmap string Report
}.

(** ** The monad of Python calls *)

Definition M (A : Type) : Type := World → Outcome A * World.

Definition ret {A} (a : A) : M A := λ w, (Return a, w).
Definition raise {A} (e : BaseException) : M A := λ w, (Raise e, w).
Definition bind {A B} (c : M A) (k : A → M B) : M B :=
  λ w, match c w with
       | (Return a, w') => k a w'
       | (Raise e, w') => (Raise e, w')
       end.

#[global] Instance M_ret : MRet M := @ret.
#[global] Instance M_bind : MBind M := λ A B k c, bind c k.

(** [try: body / except cls as exc: handler exc]: the handler runs, in the
    world the body left, when the body raised an object the clause matches;
    anything else passes through. *)
Definition try_except {A} (body : M A) (clause : BaseException → bool)
    (handler : BaseException → M A) : M A :=
  λ w, match body w with
       | (Return a, w') => (Return a, w')
       | (Raise exc, w') =>
           if clause exc then handler exc w' else (Raise exc, w')
       end.

(** ** The configuration and the client *)

(** [pydantic.SecretStr]: the value is read through [get_secret_value] only;
    its rendering is a fixed mask. *)
Module SecretStr.
Record t := mk { get_secret_value : string }.

(** Modelled from the spec: the generated schema classes are not part of
    the sources; section 3 says the secret is never rendered and only a
    redacted representation appears (glossary: credential fields masked). *)
Definition repr (_ : t) : string := "SecretStr('**********')".
End SecretStr.

Module AmundsenType.
Record t := mk { value : string }.
Definition Amundsen : t := mk "Amundsen".
End AmundsenType.

Definition repr_str (s : string) : string := "'" +:+ s +:+ "'".
Definition repr_bool (b : bool) : string := if b then "True" else "False".
Definition repr_int (z : Z) : string := pretty z.

Module AmundsenConnection.
Record t := mk {
  type : AmundsenType.t;
  username : string;
  password : SecretStr.t;
  hostPort : string;
  maxConnectionLifeTime : Z;
  encrypted : bool;
  validateSSL : bool
}.

(** Modelled from the spec: the rendering of a configuration in
    diagnostics ([{connection}] in the f-string of line 50), field by
    field, with the credential shown through its mask. *)
Definition str (c : t) : string :=
  "type='" +:+ AmundsenType.value (type c) +:+ "'"
  +:+ " username=" +:+ repr_str (username c)
  +:+ " password=" +:+ SecretStr.repr (password c)
  +:+ " hostPort=" +:+ repr_str (hostPort c)
  +:+ " maxConnectionLifeTime=" +:+ repr_int (maxConnectionLifeTime c)
  +:+ " encrypted=" +:+ repr_bool (encrypted c)
  +:+ " validateSSL=" +:+ repr_bool (validateSSL c).

Definition with_password (c : t) (p : SecretStr.t) : t :=
  mk (type c) (username c) p (hostPort c) (maxConnectionLifeTime c)
     (encrypted c) (validateSSL c).
End AmundsenConnection.

(** The keyword arguments of [Neo4JConfig(...)], lines 40 to 47. *)
Module Neo4JConfig.
Record t := mk {
  username : string;
  password : string;
  neo4j_url : string;
  max_connection_life_time : Z;
  neo4j_encrypted : bool;
  neo4j_validate_ssl : bool
}.
End Neo4JConfig.

(** Modelled from the spec: the client class lives in [amundsen/client.py],
    which is not part of the sources; section 3 describes a Connection as a
    handle wrapping an underlying session, built from a configuration. *)
Record Neo4jHelper := mkNeo4jHelper {
  conf : Neo4JConfig.t;
  driver : nat
}.

(** What a query returns: the records, rendered. *)
Definition Rows : Type := list string.

Record OpenMetadata := mkOpenMetadata { server : string }.
Record AutomationWorkflow := mkAutomationWorkflow { workflow_ref : string }.

(** The [test_fn] dictionary: step name to zero-argument callable, in
    insertion order. *)
Definition TestFn : Type := list (string * M Rows).

(** The step runner as [test_connection] calls it (lines 69 to 74). *)
Definition StepRunner : Type :=
  OpenMetadata → TestFn → string → option AutomationWorkflow → M unit.

(** ** connection.py *)

Section connection.
(** The collaborators the file imports: the two constructors of
    [amundsen/client.py], the client's query method and the query text of
    [amundsen/queries.py]. *)
Variable Neo4JConfig_init : Neo4JConfig.t → M Neo4JConfig.t.
Variable Neo4jHelper_init : Neo4JConfig.t → M Neo4jHelper.
Variable execute_query : Neo4jHelper → string → M Rows.
Variable NEO4J_AMUNDSEN_USER_QUERY : string.
Variable test_connection_steps : StepRunner.

(** The keyword arguments lines 41 to 46 pass. *)
Definition neo4j_config_kwargs (connection : AmundsenConnection.t)
    : Neo4JConfig.t :=
  {| Neo4JConfig.username := AmundsenConnection.username connection;
     Neo4JConfig.password :=
       SecretStr.get_secret_value (AmundsenConnection.password connection);
     Neo4JConfig.neo4j_url := AmundsenConnection.hostPort connection;
     Neo4JConfig.max_connection_life_time :=
       AmundsenConnection.maxConnectionLifeTime connection;
     Neo4JConfig.neo4j_encrypted := AmundsenConnection.encrypted connection;
     Neo4JConfig.neo4j_validate_ssl :=
       AmundsenConnection.validateSSL connection |}.

(** The body of the [try], lines 40 to 48. *)
Definition construct_client (connection : AmundsenConnection.t)
    : M Neo4jHelper :=
  neo4j_config ← Neo4JConfig_init (neo4j_config_kwargs connection);
  Neo4jHelper_init neo4j_config.

(** The f-string of line 50. *)
Definition connection_error_message (connection : AmundsenConnection.t)
    (exc : BaseException) : string :=
  "Unknown error connecting with " +:+ AmundsenConnection.str connection
  +:+ ": " +:+ exc_str exc +:+ ".".

Definition get_connection (connection : AmundsenConnection.t)
    : M Neo4jHelper :=
  try_except
    (construct_client connection)
    isinstance_Exception
    (λ exc,
       let msg := connection_error_message connection exc in
       raise (mkExc SourceConnectionException msg)).

(** [partial(client.execute_query, query=...)]: a callable, nothing runs
    until it is called. *)
Definition partial_execute_query (client : Neo4jHelper) (query : string)
    : M Rows :=
  λ w, execute_query client query w.

Definition test_fn (client : Neo4jHelper) : TestFn :=
  [("CheckAccess",
    partial_execute_query client NEO4J_AMUNDSEN_USER_QUERY)].

Definition test_connection (metadata : OpenMetadata) (client : Neo4jHelper)
    (service_connection : AmundsenConnection.t)
    (automation_workflow : option AutomationWorkflow) : M unit :=
  test_connection_steps metadata (test_fn client)
    (AmundsenType.value (AmundsenConnection.type service_connection))
    automation_workflow.
End connection.

(** ** test_connections.py: the step runner and its two sinks *)

Module TestConnections.

(** Modelled from the spec: [metadata/ingestion/connections/test_connections.py]
    is not part of the sources.  Section 3: a diagnostic step is a named
    probe; section 9 adds the optional [dependsOn] field. *)
Record DiagnosticStep := mkStep {
  name : string;
  probe : M Rows;
  dependsOn : option string
}.

Definition is_succeeded (r : StepResult) : bool :=
  Status_eqb (status r) Succeeded.
Definition is_failed (r : StepResult) : bool :=
  Status_eqb (status r) Failed.

Definition succeeded (s : DiagnosticStep) : StepResult :=
  mkStepResult (name s) Succeeded None None.
Definition failed (s : DiagnosticStep) (exc : BaseException) : StepResult :=
  mkStepResult (name s) Failed (Some (exc_str exc)) (Some (exc_class exc)).
Definition skipped (s : DiagnosticStep) : StepResult :=
  mkStepResult (name s) Skipped None None.

(** Modelled from the spec: section 4.2, rule 4.  A step with a declared
    dependency is skipped when that dependency already failed. *)
Definition dependency_failed (done : list StepResult) (s : DiagnosticStep)
    : bool :=
  match dependsOn s with
  | None => false
  | Some d =>
      existsb (λ r, String.eqb (stepName r) d && is_failed r) done
  end.

(** Modelled from the spec: section 4.2, rules 1 to 4.  The steps run in
    the declared order; [done] holds the results recorded so far.  With
    [fail_fast] (inline mode) the first failure ends the pass. *)
Fixpoint run_steps (fail_fast : bool) (steps : list DiagnosticStep)
    (done : list StepResult) (w : World) : list StepResult * World :=
  match steps with
  | [] => (done, w)
  | s :: rest =>
      if dependency_failed done s
      then run_steps fail_fast rest (done ++ [skipped s]) w
      else
        match probe s w with
        | (Return _, w') => run_steps fail_fast rest (done ++ [succeeded s]) w'
        | (Raise exc, w') =>
            if fail_fast
            then (done ++ [failed s exc], w')
            else run_steps fail_fast rest (done ++ [failed s exc]) w'
        end
  end.

(** Modelled from the spec: section 3 and section 4.2, aggregation.  The
    overall status is derived: Succeeded iff every result is. *)
Definition aggregate (results : list StepResult) : Status :=
  if forallb is_succeeded results then Succeeded else Failed.

Definition run (fail_fast : bool) (service_fqn : string)
    (steps : list DiagnosticStep) (w : World) : Report * World :=
  let '(results, w') := run_steps fail_fast steps [] w in
  (mkReport service_fqn results (aggregate results), w').

Definition first_failing (results : list StepResult) : option StepResult :=
  find (λ r, negb (is_succeeded r)) results.

(** Modelled from the spec: section 4.3, the classified error of inline
    mode carries the first failing step's name and message. *)
Definition classified_error (r : option StepResult) : BaseException :=
  match r with
  | Some r =>
      mkExc SourceConnectionException
        (stepName r +:+ ": " +:+ default "" (message r))
  | None => mkExc SourceConnectionException ""
  end.

(** Modelled from the spec: section 4.3, inline mode.  A failed report
    fails the caller; on success nothing is retained. *)
Definition inline_sink (report : Report) : M unit :=
  match overallStatus report with
  | Succeeded => ret ()
  | _ => raise (classified_error (first_failing (orderedResults report)))
  end.

(** Modelled from the spec: section 4.3 and section 6, workflow mode.
    [recordReport(workflowRef, Report)]: the report is stored under the
    workflow reference and the call returns. *)
Definition recordReport (metadata : OpenMetadata)
    (automation_workflow : AutomationWorkflow) (report : Report) : M unit :=
  λ w, (Return (),
        mkWorld (open_sessions w) (io_log w)
          (<[workflow_ref automation_workflow := report]> (workflow_store w))).

(** Modelled from the spec: section 6, [runTest]: inline mode without a
    workflow reference, workflow mode with one. *)
Definition run_test (metadata : OpenMetadata) (steps : list DiagnosticStep)
    (service_fqn : string) (automation_workflow : option AutomationWorkflow)
    : M unit :=
  match automation_workflow with
  | None =>
      λ w, let '(report, w') := run true service_fqn steps w in
           inline_sink report w'
  | Some wf =>
      λ w, let '(report, w') := run false service_fqn steps w in
           recordReport metadata wf report w'
  end.

(** Modelled from the spec: section 9, each entry of the name-to-callable
    dictionary is a step with no declared dependency. *)
Definition steps_of_test_fn (test_fn : TestFn) : list DiagnosticStep :=
  map (λ '(n, f), mkStep n f None) test_fn.

Definition test_connection_steps : StepRunner :=
  λ metadata test_fn service_fqn automation_workflow,
    run_test metadata (steps_of_test_fn test_fn) service_fqn
      automation_workflow.

End TestConnections.

(** A runner calls none of the probes it is given, in world [w], when its
    result there is the same whatever the callables of the table are. *)
Definition calls_no_probe (runner : StepRunner) (metadata : OpenMetadata)
    (automation_workflow : option AutomationWorkflow) (w : World) : Prop :=
  ∀ (table table' : TestFn) (service_fqn : string),
    table.*1 = table'.*1 →
    runner metadata table service_fqn automation_workflow w
    = runner metadata table' service_fqn automation_workflow w.

(** ** Strings *)

(** Python's [needle in hay] on strings. *)
Fixpoint str_contains (needle hay : string) : bool :=
  String.prefix needle hay
  || match hay with
     | EmptyString => false
     | String _ rest => str_contains needle rest
     end.

(** ** Sample configurations and collaborators

    Concrete values on which the statements below are exercised: the
    scenario of section 8 of the spec, a server with Neo4j's stock
    credentials, and constructors that succeed, cannot reach the server,
    open a session before the handshake is refused, or are interrupted. *)

Definition world0 : World := mkWorld ∅ [] ∅.

Definition scenario_config : AmundsenConnection.t :=
  AmundsenConnection.mk AmundsenType.Amundsen "neo4j" (SecretStr.mk "pw")
    "db.example:7687" 50 false false.


Definition open_session (id : nat) (w : World) : World :=
  mkWorld ({[id]} ∪ open_sessions w) (io_log w) (workflow_store w).

Definition send (text : string) (w : World) : World :=
  mkWorld (open_sessions w) (io_log w ++ [text]) (workflow_store w).

Definition config_accepts : Neo4JConfig.t → M Neo4JConfig.t := ret.

Definition helper_connects (cfg : Neo4JConfig.t) : M Neo4jHelper :=
  λ w, (Return (mkNeo4jHelper cfg 1), open_session 1 w).

Definition ServiceUnavailable : BaseException :=
  mkExc (ExceptionSubclass "neo4j.exceptions.ServiceUnavailable")
    "Unable to retrieve routing information".

Definition AuthError : BaseException :=
  mkExc (ExceptionSubclass "neo4j.exceptions.AuthError")
    "The client is unauthorized due to authentication failure".

Definition helper_unreachable (cfg : Neo4JConfig.t) : M Neo4jHelper :=
  raise ServiceUnavailable.

Definition helper_handshake_refused (cfg : Neo4JConfig.t) : M Neo4jHelper :=
  λ w, (Raise AuthError, send "HELLO" (open_session 1 w)).

Definition query_answers (client : Neo4jHelper) (query : string) : M Rows :=
  λ w, (Return ["user"], send query w).

Definition query_denied (client : Neo4jHelper) (query : string) : M Rows :=
  λ w, (Raise (mkExc (ExceptionSubclass "neo4j.exceptions.ClientError")
                 "permission denied"), send query w).

Definition sample_client : Neo4jHelper :=
  mkNeo4jHelper (neo4j_config_kwargs scenario_config) 1.

Definition sample_metadata : OpenMetadata := mkOpenMetadata "http://localhost:8585/api".
Definition sample_workflow : AutomationWorkflow := mkAutomationWorkflow "wf-1".

(** A runner that returns at once, calling nothing. *)
Definition idle_runner : StepRunner := λ _ _ _ _, ret ().

Definition step_fails (n : string) : TestConnections.DiagnosticStep :=
  TestConnections.mkStep n (query_denied sample_client n) None.
Definition step_passes (n : string) : TestConnections.DiagnosticStep :=
  TestConnections.mkStep n (query_answers sample_client n) None.

(** Further collaborators: a configuration class that rejects its
    arguments, and a client constructor that is interrupted from the
    keyboard or fails with the connector's own error class. *)
Definition ValidationError : BaseException :=
  mkExc (ExceptionSubclass "pydantic.ValidationError")
    "1 validation error for Neo4JConfig".

Definition config_rejects (kwargs : Neo4JConfig.t) : M Neo4JConfig.t :=
  raise ValidationError.

Definition helper_interrupted (cfg : Neo4JConfig.t) : M Neo4jHelper :=
  λ w, (Raise (mkExc KeyboardInterrupt ""), open_session 1 w).

Definition helper_already_classified (cfg : Neo4JConfig.t) : M Neo4jHelper :=
  raise (mkExc SourceConnectionException "driver refused").

(** Modelled from the spec: section 4.2, rules 1 to 4, read as a relation
    rather than as a loop.  [full_pass steps done w results w'] holds when
    [results] extends [done] by one result per step of [steps], in order:
    Skipped, with the probe not called, for a step whose declared dependency
    has a Failed result so far; otherwise Succeeded or Failed according to
    what the step's probe does in the world its predecessors left.  [w'] is
    the world after the last probe. *)
Inductive full_pass :
    list TestConnections.DiagnosticStep → list StepResult → World →
    list StepResult → World → Prop :=
| pass_done (done : list StepResult) (w : World) :
    full_pass [] done w done w
| pass_skipped s rest done w results w' :
    TestConnections.dependency_failed done s = true →
    full_pass rest (done ++ [TestConnections.skipped s]) w results w' →
    full_pass (s :: rest) done w results w'
| pass_succeeded s rest done w rows w1 results w' :
    TestConnections.dependency_failed done s = false →
    TestConnections.probe s w = (Return rows, w1) →
    full_pass rest (done ++ [TestConnections.succeeded s]) w1 results w' →
    full_pass (s :: rest) done w results w'
| pass_failed s rest done w exc w1 results w' :
    TestConnections.dependency_failed done s = false →
    TestConnections.probe s w = (Raise exc, w1) →
    full_pass rest (done ++ [TestConnections.failed s exc]) w1 results w' →
    full_pass (s :: rest) done w results w'.

(** The result recorded for a probe that was called, from its outcome. *)
Definition result_of_outcome (step_name : string) (outcome : Outcome Rows)
    : StepResult :=
  match outcome with
  | Return _ => mkStepResult step_name Succeeded None None
  | Raise exc =>
      mkStepResult step_name Failed (Some (exc_str exc)) (Some (exc_class exc))
  end.

(** * Properties *)

(** ** Substrings *)

Lemma prefix_app (s t : string) : String.prefix s (s +:+ t) = true.
Proof.
  induction s as [|a s IH]; simpl.
  - by destruct t.
  - destruct (Ascii.ascii_dec a a); [exact IH | congruence].
Qed.

Lemma str_contains_here (s t : string) : str_contains s (s +:+ t) = true.
Proof.
  destruct s as [|a s]; destruct t as [|b t]; simpl; try done.
  - destruct (Ascii.ascii_dec a a); [|congruence].
    by rewrite (prefix_app s "").
  - destruct (Ascii.ascii_dec a a); [|congruence].
    by rewrite (prefix_app s (String b t)).
Qed.

Lemma str_contains_later (s pre t : string) :
  str_contains s t = true → str_contains s (pre +:+ t) = true.
Proof.
  intros H. induction pre as [|a pre IH]; simpl; [done|].
  rewrite IH. apply orb_true_r.
Qed.

(** ** get_connection *)

Section get_connection_facts.
Variable Neo4JConfig_init : Neo4JConfig.t → M Neo4JConfig.t.
Variable Neo4jHelper_init : Neo4JConfig.t → M Neo4jHelper.

(** The three ways out of the [try] statement. *)
Lemma get_connection_cases (connection : AmundsenConnection.t) (w : World) :
  get_connection Neo4JConfig_init Neo4jHelper_init connection w =
    match construct_client Neo4JConfig_init Neo4jHelper_init connection w with
    | (Return client, w') => (Return client, w')
    | (Raise exc, w') =>
        if isinstance_Exception exc
        then (Raise (mkExc SourceConnectionException
                       (connection_error_message connection exc)), w')
        else (Raise exc, w')
    end.
Proof.
  unfold get_connection, try_except.
  destruct (construct_client _ _ connection w) as [[client|exc] w']; [done|].
  by destruct (isinstance_Exception exc).
Qed.

(** The body of the [try] is the two constructor calls in sequence. *)
Lemma construct_client_cases (connection : AmundsenConnection.t) (w : World) :
  construct_client Neo4JConfig_init Neo4jHelper_init connection w =
    match Neo4JConfig_init (neo4j_config_kwargs connection) w with
    | (Return cfg, w1) => Neo4jHelper_init cfg w1
    | (Raise exc, w1) => (Raise exc, w1)
    end.
Proof. reflexivity. Qed.
End get_connection_facts.

Lemma str_with_password (c : AmundsenConnection.t) (p : SecretStr.t) :
  AmundsenConnection.str (AmundsenConnection.with_password c p)
  = AmundsenConnection.str c.
Proof. reflexivity. Qed.

(** C1.  Whatever the two constructors do: when they return a client,
    [get_connection] returns that client; when one of them raises an
    exception (an instance of [Exception], what line 49 catches),
    [get_connection] raises a [SourceConnectionException], never the
    original class, and its message includes the text of the cause. *)
Theorem get_connection_classifies_failure
    (Neo4JConfig_init : Neo4JConfig.t → M Neo4JConfig.t)
    (Neo4jHelper_init : Neo4JConfig.t → M Neo4jHelper)
    (connection : AmundsenConnection.t) (w w' : World)
    (outcome : Outcome Neo4jHelper) :
  construct_client Neo4JConfig_init Neo4jHelper_init connection w
    = (outcome, w') →
  (∀ exc, outcome = Raise exc → isinstance_Exception exc = true) →
  match outcome with
  | Return client =>
      get_connection Neo4JConfig_init Neo4jHelper_init connection w
        = (Return client, w')
  | Raise exc =>
      ∃ msg,
        get_connection Neo4JConfig_init Neo4jHelper_init connection w
          = (Raise (mkExc SourceConnectionException msg), w')
        ∧ msg = "Unknown error connecting with "
                +:+ AmundsenConnection.str connection
                +:+ ": " +:+ exc_str exc +:+ "."
        ∧ str_contains (exc_str exc) msg = true
  end.
Proof.
  intros Hc Hexc. rewrite get_connection_cases, Hc.
  destruct outcome as [client|exc]; [done|].
  rewrite (Hexc exc eq_refl). eexists. split; [done|]. split; [done|].
  unfold connection_error_message.
  do 3 apply str_contains_later. apply str_contains_here.
Qed.

Lemma get_connection_classifies_failure_witness :
  ∃ msg,
    get_connection config_accepts helper_unreachable scenario_config world0
      = (Raise (mkExc SourceConnectionException msg), world0)
    ∧ msg = "Unknown error connecting with "
            +:+ AmundsenConnection.str scenario_config
            +:+ ": " +:+ exc_str ServiceUnavailable +:+ "."
    ∧ str_contains (exc_str ServiceUnavailable) msg = true.
Proof.
  apply (get_connection_classifies_failure config_accepts helper_unreachable
           scenario_config world0 world0 (Raise ServiceUnavailable)).
  - reflexivity.
  - intros exc [= <-]. reflexivity.
Defined.




(** C8, as stated, fails.  The handshake is refused after the session has
    been opened: [get_connection] raises with session 1 still open, since
    its [except] block only builds a message and raises. *)
Lemma session_left_open_counterexample :
  open_sessions world0 = ∅
  ∧ ∃ exc w',
      get_connection config_accepts helper_handshake_refused scenario_config
        world0 = (Raise exc, w')
      ∧ exc_class exc = SourceConnectionException
      ∧ elements (open_sessions w') = [1%nat].
Proof.
  split; [reflexivity|].
  eexists _, _. split; [reflexivity|]. split; [reflexivity|].
  vm_compute. reflexivity.
Qed.

(** C8, amended.  [get_connection] neither opens nor releases anything
    itself: it leaves the world exactly as the constructor calls left it,
    and when construction raises it returns no client. *)
Theorem get_connection_releases_nothing
    (Neo4JConfig_init : Neo4JConfig.t → M Neo4JConfig.t)
    (Neo4jHelper_init : Neo4JConfig.t → M Neo4jHelper)
    (connection : AmundsenConnection.t) (w : World) :
  (get_connection Neo4JConfig_init Neo4jHelper_init connection w).2
  = (construct_client Neo4JConfig_init Neo4jHelper_init connection w).2
  ∧ ∀ exc,
      (construct_client Neo4JConfig_init Neo4jHelper_init connection w).1
        = Raise exc →
      ∃ exc',
        (get_connection Neo4JConfig_init Neo4jHelper_init connection w).1
          = Raise exc'.
Proof.
  rewrite get_connection_cases.
  destruct (construct_client _ _ connection w) as [[client|exc] w'];
    simpl.
  - split; [done|]. intros exc [=].
  - destruct (isinstance_Exception exc); simpl; eauto.
Qed.

(** C9.  When [get_connection] returns a client, that client is what
    [Neo4jHelper] built from the configuration object [Neo4JConfig] built
    from exactly these keyword arguments: username, the revealed secret as
    password, hostPort as the URL, maxConnectionLifeTime as the connection
    lifetime, encrypted and validateSSL as the two TLS flags. *)
Theorem get_connection_builds_from_fields
    (Neo4JConfig_init : Neo4JConfig.t → M Neo4JConfig.t)
    (Neo4jHelper_init : Neo4JConfig.t → M Neo4jHelper)
    (connection : AmundsenConnection.t) (w w' : World)
    (client : Neo4jHelper) :
  get_connection Neo4JConfig_init Neo4jHelper_init connection w
    = (Return client, w') →
  ∃ neo4j_config w1,
    Neo4JConfig_init
      {| Neo4JConfig.username := AmundsenConnection.username connection;
         Neo4JConfig.password :=
           SecretStr.get_secret_value (AmundsenConnection.password connection);
         Neo4JConfig.neo4j_url := AmundsenConnection.hostPort connection;
         Neo4JConfig.max_connection_life_time :=
           AmundsenConnection.maxConnectionLifeTime connection;
         Neo4JConfig.neo4j_encrypted := AmundsenConnection.encrypted connection;
         Neo4JConfig.neo4j_validate_ssl :=
           AmundsenConnection.validateSSL connection |} w
      = (Return neo4j_config, w1)
    ∧ Neo4jHelper_init neo4j_config w1 = (Return client, w').
Proof.
  rewrite get_connection_cases, construct_client_cases.
  fold (neo4j_config_kwargs connection).
  destruct (Neo4JConfig_init _ w) as [[cfg|exc] w1].
  - destruct (Neo4jHelper_init cfg w1) as [[h|exc] w2] eqn:Hh.
    + intros [= -> ->]. eauto.
    + destruct (isinstance_Exception exc); discriminate.
  - destruct (isinstance_Exception exc); discriminate.
Qed.

Lemma get_connection_builds_from_fields_witness :
  ∃ neo4j_config w1,
    config_accepts
      (Neo4JConfig.mk "neo4j" "pw" "db.example:7687" 50 false false) world0
      = (Return neo4j_config, w1)
    ∧ helper_connects neo4j_config w1
      = (Return sample_client, open_session 1 world0).
Proof.
  apply (get_connection_builds_from_fields config_accepts helper_connects
           scenario_config world0 (open_session 1 world0) sample_client).
  reflexivity.
Defined.

(** ** test_connection *)

(** C3.  Whatever the step runner is, [test_connection] calls it once, with
    its [metadata], a table of exactly one step named "CheckAccess", the
    value of the service connection's type as service identifier and the
    optional automation workflow; calling that step's probe runs the
    Amundsen user query on the supplied client. *)
Theorem test_connection_registers_check_access
    (execute_query : Neo4jHelper → string → M Rows)
    (NEO4J_AMUNDSEN_USER_QUERY : string) (test_connection_steps : StepRunner)
    (metadata : OpenMetadata) (client : Neo4jHelper)
    (service_connection : AmundsenConnection.t)
    (automation_workflow : option AutomationWorkflow) :
  ∃ check_access : M Rows,
    test_connection execute_query NEO4J_AMUNDSEN_USER_QUERY
      test_connection_steps metadata client service_connection
      automation_workflow
    = test_connection_steps metadata [("CheckAccess", check_access)]
        (AmundsenType.value (AmundsenConnection.type service_connection))
        automation_workflow
    ∧ ∀ w, check_access w = execute_query client NEO4J_AMUNDSEN_USER_QUERY w.
Proof. eexists. split; reflexivity. Qed.

(** C10.  Building the step table runs nothing: with a runner that calls
    none of its probes, [test_connection] behaves the same whatever
    [execute_query] would do, so the query method has not been invoked; the
    "CheckAccess" entry is the deferred call, which runs [execute_query] on
    the client with the user query in the world where it is called. *)
Theorem check_access_probe_is_deferred
    (NEO4J_AMUNDSEN_USER_QUERY : string) (runner : StepRunner)
    (metadata : OpenMetadata) (client : Neo4jHelper)
    (service_connection : AmundsenConnection.t)
    (automation_workflow : option AutomationWorkflow) (w : World) :
  calls_no_probe runner metadata automation_workflow w →
  (∀ execute_query execute_query' : Neo4jHelper → string → M Rows,
     test_connection execute_query NEO4J_AMUNDSEN_USER_QUERY runner metadata
       client service_connection automation_workflow w
     = test_connection execute_query' NEO4J_AMUNDSEN_USER_QUERY runner
         metadata client service_connection automation_workflow w)
  ∧ (∀ (execute_query : Neo4jHelper → string → M Rows) (w' : World),
       (λ entry, (entry.1, entry.2 w'))
         <$> test_fn execute_query NEO4J_AMUNDSEN_USER_QUERY client
       = [("CheckAccess",
           execute_query client NEO4J_AMUNDSEN_USER_QUERY w')]).
Proof.
  intros Hidle. split.
  - intros q q'. unfold test_connection. by apply Hidle.
  - reflexivity.
Qed.

Lemma check_access_probe_is_deferred_witness :
  (∀ execute_query execute_query' : Neo4jHelper → string → M Rows,
     test_connection execute_query "MATCH (user:User) RETURN user"
       idle_runner sample_metadata sample_client scenario_config None world0
     = test_connection execute_query' "MATCH (user:User) RETURN user"
         idle_runner sample_metadata sample_client scenario_config None
         world0)
  ∧ (∀ (execute_query : Neo4jHelper → string → M Rows) (w' : World),
       (λ entry, (entry.1, entry.2 w'))
         <$> test_fn execute_query "MATCH (user:User) RETURN user"
               sample_client
       = [("CheckAccess",
           execute_query sample_client "MATCH (user:User) RETURN user" w')]).
Proof.
  apply (check_access_probe_is_deferred "MATCH (user:User) RETURN user"
           idle_runner sample_metadata sample_client scenario_config None
           world0).
  intros table table' service_fqn _. reflexivity.
Defined.

(** ** The step runner *)

Section runner_facts.
Import TestConnections.

Lemma is_succeeded_spec (r : StepResult) :
  is_succeeded r = true ↔ status r = Succeeded.
Proof. unfold is_succeeded. by destruct (status r). Qed.

Lemma aggregate_succeeded (results : list StepResult) :
  aggregate results = Succeeded
  ↔ Forall (λ r, status r = Succeeded) results.
Proof.
  unfold aggregate. destruct (forallb is_succeeded results) eqn:Hall.
  - split; [intros _|done].
    apply Forall_forall. intros r Hr. apply is_succeeded_spec.
    rewrite forallb_forall in Hall. by apply Hall, list_elem_of_In.
  - split; [done|]. intros HF. exfalso.
    assert (forallb is_succeeded results = true) as Hall'; [|congruence].
    apply forallb_forall. intros r Hr. apply is_succeeded_spec.
    rewrite Forall_forall in HF. by apply HF, list_elem_of_In.
Qed.

Lemma aggregate_total (results : list StepResult) :
  aggregate results = Succeeded ∨ aggregate results = Failed.
Proof. unfold aggregate. destruct (forallb _ _); auto. Qed.

(** Without fail-fast every step leaves one result, in order. *)
Lemma run_steps_all_names (steps : list DiagnosticStep) :
  ∀ (done : list StepResult) (w : World),
    stepName <$> (run_steps false steps done w).1
    = (stepName <$> done) ++ (name <$> steps).
Proof.
  induction steps as [|s rest IH]; intros done w; simpl.
  - by rewrite app_nil_r.
  - destruct (dependency_failed done s).
    + rewrite IH, fmap_app, <-app_assoc. done.
    + destruct (probe s w) as [[rows|exc] w1];
        rewrite IH, fmap_app, <-app_assoc; done.
Qed.

Lemma dependency_failed_nil (s : DiagnosticStep) :
  dependency_failed [] s = false.
Proof. unfold dependency_failed. by destruct (dependsOn s). Qed.

Lemma no_dependency_not_failed (s1 s2 : DiagnosticStep)
    (exc : BaseException) :
  dependsOn s2 ≠ Some (name s1) →
  dependency_failed [failed s1 exc] s2 = false.
Proof.
  unfold dependency_failed. destruct (dependsOn s2) as [d|]; [|done].
  intros Hd. simpl. rewrite orb_false_r, andb_true_r.
  apply String.eqb_neq. congruence.
Qed.
(** Without fail-fast the loop makes a full pass, and a full pass has one
    outcome only. *)
Lemma run_steps_full_pass (steps : list DiagnosticStep) :
  ∀ (done : list StepResult) (w : World),
    full_pass steps done w (run_steps false steps done w).1
      (run_steps false steps done w).2.
Proof.
  induction steps as [|s rest IH]; intros done w; simpl.
  - constructor.
  - destruct (dependency_failed done s) eqn:Hdep.
    + apply pass_skipped; [done|apply IH].
    + destruct (probe s w) as [[rows|exc] w1] eqn:Hprobe.
      * eapply pass_succeeded; [done|exact Hprobe|apply IH].
      * eapply pass_failed; [done|exact Hprobe|apply IH].
Qed.

Lemma full_pass_unique steps done w results w' results2 w2 :
  full_pass steps done w results w' →
  full_pass steps done w results2 w2 →
  results2 = results ∧ w2 = w'.
Proof.
  intros Hpass. revert results2 w2.
  induction Hpass as [done w|s rest done w results w' Hdep _ IH
                      |s rest done w rows w1 results w' Hdep Hprobe _ IH
                      |s rest done w exc w1 results w' Hdep Hprobe _ IH];
    intros results2 w2 Hother; inversion Hother; subst; try congruence.
  - done.
  - by apply IH.
  - match goal with
    | H : probe s w = (Return ?r, ?v) |- _ =>
        rewrite Hprobe in H; injection H as <- <-
    end.
    by apply IH.
  - match goal with
    | H : probe s w = (Raise ?e, ?v) |- _ =>
        rewrite Hprobe in H; injection H as <- <-
    end.
    by apply IH.
Qed.
End runner_facts.

(** C4.  In either mode, the report of a run is Succeeded overall exactly
    when every step result in it is Succeeded; one result that is Failed,
    or Skipped, makes it Failed. *)
Theorem report_overall_status (fail_fast : bool) (service_fqn : string)
    (steps : list TestConnections.DiagnosticStep) (w : World) :
  let report := (TestConnections.run fail_fast service_fqn steps w).1 in
  (overallStatus report = Succeeded
   ↔ Forall (λ r, status r = Succeeded) (orderedResults report))
  ∧ (∀ r, r ∈ orderedResults report →
          status r = Failed ∨ status r = Skipped →
          overallStatus report = Failed).
Proof.
  unfold TestConnections.run.
  destruct (TestConnections.run_steps fail_fast steps [] w)
    as [results w'].
  simpl. split; [apply aggregate_succeeded|].
  intros r Hr Hbad.
  destruct (aggregate_total results) as [Hok|Hko]; [|done].
  apply aggregate_succeeded in Hok. rewrite Forall_forall in Hok.
  specialize (Hok r Hr). destruct Hbad; congruence.
Qed.



(** C6.  Workflow mode always returns normally, whatever the probes do.
    The report handed to the workflow store, under the workflow's reference,
    is the full report of the run: for the service, with one result per
    step, in order, each one Skipped, Succeeded or Failed as the full pass
    over the steps determines from the probes' outcomes, and the aggregate
    of these results as overall status; the rest of the world is as the
    probes left it.  So does [test_connection] with this runner: the stored
    report holds the one result of "CheckAccess", Succeeded when
    [execute_query] returned and Failed, with its message and class, when it
    raised. *)
Theorem workflow_mode_persists_full_report (metadata : OpenMetadata)
    (automation_workflow : AutomationWorkflow) (service_fqn : string)
    (w : World) :
  (∀ steps : list TestConnections.DiagnosticStep,
     ∃ results w1 report w',
       TestConnections.run_test metadata steps service_fqn
         (Some automation_workflow) w = (Return (), w')
       ∧ workflow_store w' !! workflow_ref automation_workflow = Some report
       ∧ serviceIdentifier report = service_fqn
       ∧ stepName <$> orderedResults report
         = TestConnections.name <$> steps
       ∧ full_pass steps [] w results w1
       ∧ report = mkReport service_fqn results
                    (TestConnections.aggregate results)
       ∧ w' = mkWorld (open_sessions w1) (io_log w1)
                (<[workflow_ref automation_workflow := report]>
                   (workflow_store w1)))
  ∧ (∀ (execute_query : Neo4jHelper → string → M Rows)
       (NEO4J_AMUNDSEN_USER_QUERY : string) (client : Neo4jHelper)
       (service_connection : AmundsenConnection.t),
       test_connection execute_query NEO4J_AMUNDSEN_USER_QUERY
         TestConnections.test_connection_steps metadata client
         service_connection (Some automation_workflow) w
       = let '(outcome, w1) :=
           execute_query client NEO4J_AMUNDSEN_USER_QUERY w in
         (Return (),
          mkWorld (open_sessions w1) (io_log w1)
            (<[workflow_ref automation_workflow :=
                 mkReport
                   (AmundsenType.value
                      (AmundsenConnection.type service_connection))
                   [result_of_outcome "CheckAccess" outcome]
                   match outcome with
                   | Return _ => Succeeded
                   | Raise _ => Failed
                   end]> (workflow_store w1)))).
Proof.
  split.
  - intros steps.
    pose proof (run_steps_full_pass steps [] w) as Hpass.
    pose proof (run_steps_all_names steps [] w) as Hnames.
    unfold TestConnections.run_test, TestConnections.run.
    destruct (TestConnections.run_steps false steps [] w) as [results w1].
    simpl in Hpass, Hnames. unfold TestConnections.recordReport.
    exists results, w1. eexists _, _.
    split; [reflexivity|]. simpl.
    split; [apply lookup_insert_eq|]. split; [done|].
    split; [exact Hnames|]. split; [exact Hpass|]. done.
  - intros q Q client sc. unfold test_connection.
    unfold TestConnections.test_connection_steps,
      TestConnections.run_test, TestConnections.run. simpl.
    unfold partial_execute_query.
    by destruct (q client Q w) as [[rows|exc] w1].
Qed.

(** Two failing steps: both failures are in the stored report, and both
    probes have sent their query. *)
Example workflow_mode_two_failures :
  let w' := (TestConnections.run_test sample_metadata
               [step_fails "S1"; step_fails "S2"] "Amundsen"
               (Some sample_workflow) world0).2 in
  (λ report, status <$> orderedResults report) <$> workflow_store w' !! "wf-1"
    = Some [Failed; Failed]
  ∧ io_log w' = ["S1"; "S2"].
Proof. split; vm_compute; reflexivity. Qed.

(** C7.  Workflow mode, steps [S1; S2], the probe of S1 raises and S2 does
    not declare S1 as its dependency: the probe of S2 is called, in the
    world S1 left, and the stored report holds a Failed result for S1
    followed by the result of S2, Succeeded if its probe returned and
    Failed if it raised. *)
Theorem workflow_mode_attempts_independent_step (metadata : OpenMetadata)
    (S1 S2 : TestConnections.DiagnosticStep) (service_fqn : string)
    (automation_workflow : AutomationWorkflow) (w w1 w2 : World)
    (exc : BaseException) (outcome2 : Outcome Rows) :
  TestConnections.probe S1 w = (Raise exc, w1) →
  TestConnections.dependsOn S2 ≠ Some (TestConnections.name S1) →
  TestConnections.probe S2 w1 = (outcome2, w2) →
  ∃ result2 w',
    TestConnections.run_test metadata [S1; S2] service_fqn
      (Some automation_workflow) w = (Return (), w')
    ∧ workflow_store w' !! workflow_ref automation_workflow
      = Some (mkReport service_fqn
                [TestConnections.failed S1 exc; result2] Failed)
    ∧ status (TestConnections.failed S1 exc) = Failed
    ∧ stepName result2 = TestConnections.name S2
    ∧ status result2
      = match outcome2 with Return _ => Succeeded | Raise _ => Failed end
    ∧ open_sessions w' = open_sessions w2
    ∧ io_log w' = io_log w2.
Proof.
  intros H1 Hdep H2.
  unfold TestConnections.run_test, TestConnections.run. simpl.
  rewrite dependency_failed_nil, H1. simpl.
  rewrite (no_dependency_not_failed S1 S2 exc Hdep), H2.
  destruct outcome2 as [rows|exc2]; simpl.
  - eexists (TestConnections.succeeded S2), _.
    split; [reflexivity|]. simpl. split; [apply lookup_insert_eq|]. done.
  - eexists (TestConnections.failed S2 exc2), _.
    split; [reflexivity|]. simpl. split; [apply lookup_insert_eq|]. done.
Qed.

Lemma workflow_mode_attempts_independent_step_witness :
  ∃ result2 w',
    TestConnections.run_test sample_metadata
      [step_fails "S1"; step_passes "S2"] "Amundsen" (Some sample_workflow)
      world0 = (Return (), w')
    ∧ workflow_store w' !! workflow_ref sample_workflow
      = Some (mkReport "Amundsen"
                [TestConnections.failed (step_fails "S1")
                   (mkExc (ExceptionSubclass "neo4j.exceptions.ClientError")
                      "permission denied"); result2] Failed)
    ∧ status (TestConnections.failed (step_fails "S1")
                (mkExc (ExceptionSubclass "neo4j.exceptions.ClientError")
                   "permission denied")) = Failed
    ∧ stepName result2 = "S2"
    ∧ status result2 = Succeeded
    ∧ open_sessions w' = open_sessions (send "S2" (send "S1" world0))
    ∧ io_log w' = io_log (send "S2" (send "S1" world0)).
Proof.
  apply (workflow_mode_attempts_independent_step sample_metadata
           (step_fails "S1") (step_passes "S2") "Amundsen" sample_workflow
           world0 (send "S1" world0) (send "S2" (send "S1" world0))
           (mkExc (ExceptionSubclass "neo4j.exceptions.ClientError")
              "permission denied") (Return ["user"])).
  - reflexivity.
  - discriminate.
  - reflexivity.
Defined.

(** ** Further properties of get_connection *)

Lemma length_app (s t : string) :
  String.length (s +:+ t) = (String.length s + String.length t)%nat.
Proof. induction s as [|a s IH]; simpl; [done|]. by rewrite IH. Qed.

(** X1.  The [except Exception] clause of line 49 lets the exit signals
    through: when construction is interrupted by an object that is not an
    instance of [Exception], [get_connection] raises that very object, in
    the world construction left, and no [SourceConnectionException] is
    built. *)
Theorem get_connection_passes_exit_signals
    (Neo4JConfig_init : Neo4JConfig.t → M Neo4JConfig.t)
    (Neo4jHelper_init : Neo4JConfig.t → M Neo4jHelper)
    (connection : AmundsenConnection.t) (w w' : World)
    (exc : BaseException) :
  construct_client Neo4JConfig_init Neo4jHelper_init connection w
    = (Raise exc, w') →
  isinstance_Exception exc = false →
  get_connection Neo4JConfig_init Neo4jHelper_init connection w
    = (Raise exc, w')
  ∧ exc_class exc ≠ SourceConnectionException.
Proof.
  intros Hc Hexc. rewrite get_connection_cases, Hc, Hexc. split; [done|].
  intros Hcls. unfold isinstance_Exception in Hexc. by rewrite Hcls in Hexc.
Qed.

Lemma get_connection_passes_exit_signals_witness :
  get_connection config_accepts helper_interrupted scenario_config world0
    = (Raise (mkExc KeyboardInterrupt ""), open_session 1 world0)
  ∧ exc_class (mkExc KeyboardInterrupt "") ≠ SourceConnectionException.
Proof.
  apply (get_connection_passes_exit_signals config_accepts helper_interrupted
           scenario_config world0 (open_session 1 world0)
           (mkExc KeyboardInterrupt "")); reflexivity.
Defined.

(** X2.  When [Neo4JConfig(...)] raises, line 48 is not reached: the client
    constructor is not called, so the result is the same whatever
    [Neo4jHelper] would do, the world is the one the configuration class
    left, and the error is the one of the configuration class, classified
    when it is an [Exception]. *)
Theorem config_failure_skips_helper
    (Neo4JConfig_init : Neo4JConfig.t → M Neo4JConfig.t)
    (Neo4jHelper_init Neo4jHelper_init' : Neo4JConfig.t → M Neo4jHelper)
    (connection : AmundsenConnection.t) (w w1 : World)
    (exc : BaseException) :
  Neo4JConfig_init (neo4j_config_kwargs connection) w = (Raise exc, w1) →
  get_connection Neo4JConfig_init Neo4jHelper_init connection w
  = get_connection Neo4JConfig_init Neo4jHelper_init' connection w
  ∧ get_connection Neo4JConfig_init Neo4jHelper_init connection w
    = (Raise (if isinstance_Exception exc
              then mkExc SourceConnectionException
                     (connection_error_message connection exc)
              else exc), w1).
Proof.
  intros Hcfg.
  rewrite !get_connection_cases, !construct_client_cases, Hcfg.
  split; [done|]. by destruct (isinstance_Exception exc).
Qed.

Lemma config_failure_skips_helper_witness :
  get_connection config_rejects helper_connects scenario_config world0
  = get_connection config_rejects helper_handshake_refused scenario_config
      world0
  ∧ get_connection config_rejects helper_connects scenario_config world0
    = (Raise (if isinstance_Exception ValidationError
              then mkExc SourceConnectionException
                     (connection_error_message scenario_config
                        ValidationError)
              else ValidationError), world0).
Proof.
  apply (config_failure_skips_helper config_rejects helper_connects
           helper_handshake_refused scenario_config world0 world0
           ValidationError).
  reflexivity.
Defined.

(** X3.  The only [Exception] a caller of [get_connection] can see is a
    [SourceConnectionException] built by line 50 and 51: whenever
    [get_connection] raises an instance of [Exception], construction raised
    an instance of [Exception] in the same world and the raised object
    carries the message made from the configuration and that cause. *)
Theorem get_connection_raises_only_classified
    (Neo4JConfig_init : Neo4JConfig.t → M Neo4JConfig.t)
    (Neo4jHelper_init : Neo4JConfig.t → M Neo4jHelper)
    (connection : AmundsenConnection.t) (w w' : World)
    (raised : BaseException) :
  get_connection Neo4JConfig_init Neo4jHelper_init connection w
    = (Raise raised, w') →
  isinstance_Exception raised = true →
  ∃ exc,
    construct_client Neo4JConfig_init Neo4jHelper_init connection w
      = (Raise exc, w')
    ∧ isinstance_Exception exc = true
    ∧ raised = mkExc SourceConnectionException
                 (connection_error_message connection exc).
Proof.
  rewrite get_connection_cases.
  destruct (construct_client _ _ connection w) as [[client|exc] w1];
    [discriminate|].
  destruct (isinstance_Exception exc) eqn:Hexc.
  - intros [= <- <-] _. by exists exc.
  - intros [= <- <-] Hraised. congruence.
Qed.

Lemma get_connection_raises_only_classified_witness :
  ∃ exc,
    construct_client config_accepts helper_handshake_refused scenario_config
      world0 = (Raise exc, send "HELLO" (open_session 1 world0))
    ∧ isinstance_Exception exc = true
    ∧ mkExc SourceConnectionException
        (connection_error_message scenario_config AuthError)
      = mkExc SourceConnectionException
          (connection_error_message scenario_config exc).
Proof.
  apply (get_connection_raises_only_classified config_accepts
           helper_handshake_refused scenario_config world0
           (send "HELLO" (open_session 1 world0))
           (mkExc SourceConnectionException
              (connection_error_message scenario_config AuthError)));
    reflexivity.
Defined.

(** X4.  The caught object is never re-raised: the message of the raised
    [SourceConnectionException] is strictly longer than the text of the
    cause, so even a [SourceConnectionException] raised during construction
    is wrapped in a new one with a different message. *)
Theorem get_connection_never_reraises_cause
    (Neo4JConfig_init : Neo4JConfig.t → M Neo4JConfig.t)
    (Neo4jHelper_init : Neo4JConfig.t → M Neo4jHelper)
    (connection : AmundsenConnection.t) (w w' : World)
    (exc : BaseException) :
  construct_client Neo4JConfig_init Neo4jHelper_init connection w
    = (Raise exc, w') →
  isinstance_Exception exc = true →
  ∃ raised,
    get_connection Neo4JConfig_init Neo4jHelper_init connection w
      = (Raise raised, w')
    ∧ (String.length (exc_str exc) + 33 ≤ String.length (exc_str raised))%nat
    ∧ raised ≠ exc.
Proof.
  intros Hc Hexc. rewrite get_connection_cases, Hc, Hexc.
  eexists. split; [done|].
  assert (String.length (exc_str exc) + 33
          ≤ String.length (connection_error_message connection exc))%nat
    as Hlen.
  { unfold connection_error_message.
    generalize (AmundsenConnection.str connection). intros rendering.
    rewrite !length_app. simpl String.length. lia. }
  split; [exact Hlen|].
  intros Heq. pose proof (f_equal exc_str Heq) as Htext.
  cbn [exc_str] in Htext. rewrite Htext in Hlen. lia.
Qed.

Lemma get_connection_never_reraises_cause_witness :
  ∃ raised,
    get_connection config_accepts helper_already_classified scenario_config
      world0 = (Raise raised, world0)
    ∧ (String.length "driver refused" + 33
       ≤ String.length (exc_str raised))%nat
    ∧ raised ≠ mkExc SourceConnectionException "driver refused".
Proof.
  apply (get_connection_never_reraises_cause config_accepts
           helper_already_classified scenario_config world0 world0
           (mkExc SourceConnectionException "driver refused")); reflexivity.
Defined.
